(** * gomarkdoc: the Asciidoc output format and the "type" template

    A shallow embedding of [format/asciidoc.go] (the [Asciidoc] format) and
    of the text/template that renders a type, with the properties the
    documentation of the renderer states about them.

    Go strings are byte sequences: they are modelled by [string] (a list of
    8-bit [ascii]).  Go's [int] is modelled by [Z]; the only place where its
    width matters is the overflow check of [strings.Repeat].  A Go function
    returning [(string, error)] returns a pair here as well.  What the
    platform and the run-time system decide (the size of [int], whether the
    memory of a string is granted) is a parameter, the [Runtime]. *)

From Stdlib Require Import String Ascii List ZArith Lia Bool.
Import ListNotations.

Open Scope string_scope.
Open Scope Z_scope.

(** ** Go string literals and [fmt.Sprintf] *)

(** The line feed byte, written [\n] in an interpreted Go literal. *)
Definition LF : ascii := ascii_of_nat 10.
Definition TAB : ascii := ascii_of_nat 9.
Definition CR : ascii := ascii_of_nat 13.

(** [interpreted s] is the value of the Go interpreted literal (double quotes)
    whose source text is [s]: the escape sequences [\n], [\t], [\r] and [\\]
    stand for one byte each.  A Go raw literal (back quotes) has no escape
    sequences: its value is its source text, i.e. the string [s] itself. *)
Fixpoint interpreted (s : string) : string :=
  match s with
  | String "\" (String "n" rest) => String LF (interpreted rest)
  | String "\" (String "t" rest) => String TAB (interpreted rest)
  | String "\" (String "r" rest) => String CR (interpreted rest)
  | String "\" (String "\" rest) => String "\" (interpreted rest)
  | String c rest => String c (interpreted rest)
  | EmptyString => EmptyString
  end.

(** Operands left over when the format is exhausted are reported by Go as
    [%!(EXTRA string=a, string=b)]. *)
Definition extra (a : list string) : string :=
  match a with
  | [] => ""
  | _ =>
      "%!(EXTRA "
      ++ String.concat ", " (map (fun x => "string=" ++ x) a) ++ ")"
  end.

(** [fmt.Sprintf] on string operands, for the two verbs the sources use:
    [%s] (the operand as it is) and [%%] (a percent sign).  A [%s] without an
    operand prints [%!s(MISSING)]. *)
Fixpoint Sprintf (format : string) (a : list string) : string :=
  match format with
  | String "%" (String "s" rest) =>
      match a with
      | x :: a' => x ++ Sprintf rest a'
      | [] => "%!s(MISSING)" ++ Sprintf rest []
      end
  | String "%" (String "%" rest) => String "%" (Sprintf rest a)
  | String "%" EmptyString => "%!(NOVERB)" ++ extra a
  | String c rest => String c (Sprintf rest a)
  | EmptyString => extra a
  end.

(** ** Results *)

(** An [error] value built by [errors.New]. *)
Inductive error : Type := errors_New (msg : string).

(** The Go result pair [(string, error)]; [None] is the [nil] error. *)
Definition result : Type := (string * option error)%type.

(** A result without error. *)
Definition ok (s : string) : result := (s, None).

(** Why a call does not return.  The text of a panic changes from one
    release of the library to the next; its cause does not.
    [AllocationRefused] stands for every way in which a string that fits an
    [int] is not built all the same: the run-time panic of a length out of
    the range the run-time system accepts, the end of the program when
    memory is exhausted, a guard of the library that gives up earlier. *)
Inductive panic : Type :=
| NegativeRepeatCount
| RepeatOverflow
| AllocationRefused.

(** A call either returns a value or does not return (it panics). *)
Inductive outcome (A : Type) : Type :=
| Returns (a : A)
| Panics (p : panic).
Arguments Returns {A} a.
Arguments Panics {A} p.

(** ** The platform, the run-time system and [strings.Repeat] *)

(** The size of [int]: 32 or 64 bits, by the platform. *)
Inductive int_size : Type := Int32 | Int64.

(** What the program runs on and does not decide: the size of [int], and
    whether a library function that builds a string of [n] bytes gets them.
    How many bytes are granted depends on the platform, on the release of
    the library and of the run-time system and on the memory at hand;
    nothing is assumed of it. *)
Record Runtime : Type := {
  intSize : int_size;
  allocates : Z -> bool
}.

(** The largest [int]. *)
Definition maxInt (rt : Runtime) : Z :=
  match intSize rt with
  | Int32 => 2 ^ 31 - 1
  | Int64 => 2 ^ 63 - 1
  end.

Fixpoint repeat_string (s : string) (n : nat) : string :=
  match n with
  | O => ""
  | S n' => s ++ repeat_string s n'
  end.

(** [strings.Repeat(s, count)]: "It panics if count is negative or if the
    result of (len(s) * count) overflows."  Otherwise it builds a string of
    [len(s) * count] bytes, which the run-time system must grant unless it
    has no byte at all. *)
Definition Repeat (rt : Runtime) (s : string) (count : Z) : outcome string :=
  let n := Z.of_nat (String.length s) * count in
  if count <? 0 then Panics NegativeRepeatCount
  else if maxInt rt <? n then Panics RepeatOverflow
  else if ((n =? 0) || allocates rt n)%bool
       then Returns (repeat_string s (Z.to_nat count))
       else Panics AllocationRefused.

(** ** Helpers of package [format] that the Asciidoc format calls

    [escape], [plainText], [gfmWhitespaceRegex] and [gfmRemoveRegex] are
    declared elsewhere in package [format]; [strings.ToLower],
    [strings.TrimSpace] and [Regexp.ReplaceAllString] are library
    functions working on UTF-8 text.  The format is embedded over any
    implementation of them. *)
Record Helpers : Type := {
  escape : string -> string;
  plainText : string -> string;
  ToLower : string -> string;
  TrimSpace : string -> string;
  Regexp : Type;
  ReplaceAllString : Regexp -> string -> string -> string;
  gfmWhitespaceRegex : Regexp;
  gfmRemoveRegex : Regexp
}.

(** ** The Asciidoc format *)

Module Asciidoc.
Section Format.

Variable env : Helpers.
Variable rt : Runtime.
Variable lang_Location : Type.

Definition genref (text : string) : string :=
  let result := plainText env text in
  let result := ToLower env result in
  let result := TrimSpace env result in
  let result := ReplaceAllString env (gfmWhitespaceRegex env) result "-" in
  let result := ReplaceAllString env (gfmRemoveRegex env) result "" in
  result.

Definition header (level : Z) (text : string) : result :=
  if level <? 1 then
    ("", Some (errors_New "format: header level cannot be less than 1"))
  else
    match level with
    | 1 =>
        (Sprintf (interpreted "[[%s]]\n= %s\n\n") [genref text; text],
         None)
    | 2 =>
        (Sprintf (interpreted "[[%s]]\n== %s\n\n") [genref text; text],
         None)
    | 3 =>
        (Sprintf (interpreted "[[%s]]\n=== %s\n\n") [genref text; text],
         None)
    | 4 =>
        (Sprintf (interpreted "[[%s]]\n==== %s\n\n") [genref text; text],
         None)
    | 5 =>
        (Sprintf (interpreted "[[%s]]\n===== %s\n\n") [genref text; text],
         None)
    | _ =>
        (Sprintf (interpreted "[[%s]]\n====== %s\n\n") [genref text; text],
         None)
    end.

Definition Bold (text : string) : result :=
  if String.eqb text "" then ("", None)
  else (Sprintf (interpreted "*%s*") [text], None).

(** The format of [CodeBlock] is a raw literal: its [\n] are two bytes each,
    a backslash and an [n]. *)
Definition CodeBlock (language code : string) : result :=
  if String.eqb code "" then ("", None)
  else
    let language := if String.eqb "" language then "go" else language in
    (Sprintf "[source,%s]\n----\n%s\n----" [language; code], None).

Definition Header (level : Z) (text : string) : result :=
  header level (escape env text).

Definition RawHeader (level : Z) (text : string) : result :=
  header level text.

Definition LocalHref (headerText : string) : result :=
  (Sprintf (interpreted "xref:%s[%s]") [genref headerText; headerText], None).

Definition CodeHref (loc : lang_Location) : result := ("", None).

Definition Link (text href : string) : result :=
  if String.eqb text "" then ("", None)
  else if String.eqb href "" then (text, None)
  else (Sprintf (interpreted "%s[%s]") [href; text], None).

Definition ListEntry (depth : Z) (text : string) : outcome result :=
  if String.eqb text "" then Returns ("", None)
  else
    match Repeat rt "**" depth with
    | Panics p => Panics p
    | Returns prefix =>
        Returns (Sprintf (interpreted "%s %s\n") [prefix; text], None)
    end.

Definition Accordion (title body : string) : result :=
  let title := if String.eqb "" title then "Description" else title in
  (Sprintf (interpreted ".%s\n[%%collapsible]\n====\n%s\n====\n") [title; body],
   None).

Definition AccordionHeader (title : string) : result :=
  (Sprintf (interpreted ".%s\nn[%%collapsible]\n====\n") [title], None).

Definition AccordionTerminator : result :=
  (interpreted "\n====\n", None).

Definition Paragraph (text : string) : result :=
  (Sprintf (interpreted "%s\n\n") [text], None).

Definition Escape (text : string) : string := escape env text.

End Format.

Arguments CodeHref {lang_Location} loc.

End Asciidoc.

(** ** The template of a type

    The template is executed with a function map that binds [codeHref],
    [link], [escape], [rawHeader] and [codeBlock] to the methods of the
    selected format, and with the templates ["doc"], ["value"], ["example"]
    and ["func"] defined in its sibling files.  Every action is trimmed on
    both sides ([{{-] and [-}}]): the text between the actions writes
    nothing. *)

Module Template.
Section TypeTemplate.

(** The data the template is executed on: a [lang.Type] and the values its
    fields hold. *)
Variables lang_Location lang_Doc lang_Value lang_Example lang_Func : Type.

Record lang_Type : Type := {
  Name : string;
  Level : Z;
  Location : lang_Location;
  Doc : lang_Doc;
  Decl : string;
  Consts : list lang_Value;
  Vars : list lang_Value;
  Examples : list lang_Example;
  Funcs : list lang_Func;
  Methods : list lang_Func
}.

(** The function map. *)
Variable codeHref : lang_Location -> result.
Variable link : string -> string -> result.
Variable escape : string -> string.
Variable rawHeader : Z -> string -> result.
Variable codeBlock : string -> string -> result.

(** The associated templates: what each writes, and the error that stopped
    it if any. *)
Variable template_doc : lang_Doc -> result.
Variable template_value : lang_Value -> result.
Variable template_example : lang_Example -> result.
Variable template_func : lang_Func -> result.

(** A command of a pipeline that returns a non-nil error stops the
    execution; nothing is written for the action it belongs to. *)
Definition pipe (r : result) (k : string -> result) : result :=
  match r with
  | (v, None) => k v
  | (_, Some e) => ("", Some e)
  end.

(** Consecutive actions write one after the other, up to the first error. *)
Definition seq (a b : result) : result :=
  match a with
  | (out, None) => let (out', e) := b in (out ++ out', e)
  | (out, Some e) => (out, Some e)
  end.

Fixpoint range {A : Type} (xs : list A) (body : A -> result) : result :=
  match xs with
  | [] => ("", None)
  | x :: xs' => seq (body x) (range xs' body)
  end.

Local Notation "v <- r | k" := (pipe r (fun v => k))
  (at level 61, r at next level, right associativity).
Local Infix ";;" := seq (at level 62, right associativity).

Definition type_template (t : lang_Type) : result :=
  (* codeHref .Location | link (escape .Name) | printf "type %s"
     | rawHeader .Level *)
  (href <- codeHref (Location t) |
   l <- link (escape (Name t)) href |
   rawHeader (Level t) (Sprintf "type %s" [l])) ;;
  (* template "doc" .Doc *)
  template_doc (Doc t) ;;
  (* codeBlock "go" .Decl *)
  codeBlock "go" (Decl t) ;;
  range (Consts t) template_value ;;
  range (Vars t) template_value ;;
  range (Examples t) template_example ;;
  range (Funcs t) template_func ;;
  range (Methods t) template_func.

End TypeTemplate.

Arguments Name {_ _ _ _ _} _.
Arguments Level {_ _ _ _ _} _.
Arguments Location {_ _ _ _ _} _.
Arguments Doc {_ _ _ _ _} _.
Arguments Decl {_ _ _ _ _} _.
Arguments Consts {_ _ _ _ _} _.
Arguments Vars {_ _ _ _ _} _.
Arguments Examples {_ _ _ _ _} _.
Arguments Funcs {_ _ _ _ _} _.
Arguments Methods {_ _ _ _ _} _.
Arguments type_template {_ _ _ _ _} _ _ _ _ _ _ _ _ _ _.

End Template.

(** ** A reference implementation of the helpers

    The properties below hold for every [Helpers]; the implementation given
    here serves to run the format on concrete texts.  It works on ASCII
    bytes. *)

Module Reference.

Fixpoint string_map (f : ascii -> ascii) (s : string) : string :=
  match s with
  | EmptyString => EmptyString
  | String c r => String (f c) (string_map f r)
  end.

Definition between (lo hi : nat) (c : ascii) : bool :=
  (Nat.leb lo (nat_of_ascii c) && Nat.leb (nat_of_ascii c) hi)%bool.

Definition is_upper : ascii -> bool := between 65 90.
Definition is_lower : ascii -> bool := between 97 122.
Definition is_digit : ascii -> bool := between 48 57.

(** Space, and tab, line feed, vertical tab, form feed, carriage return. *)
Definition is_space (c : ascii) : bool :=
  (Ascii.eqb c " " || between 9 13 c)%bool.

(** Modelled from the spec: the lower-casing step of the anchor algorithm
    ("lower-case it"), for [strings.ToLower], on ASCII letters. *)
Definition to_lower (s : string) : string :=
  string_map
    (fun c => if is_upper c then ascii_of_nat (nat_of_ascii c + 32) else c) s.

Fixpoint trim_left (s : string) : string :=
  match s with
  | String c r => if is_space c then trim_left r else s
  | EmptyString => EmptyString
  end.

Fixpoint trim_right (s : string) : string :=
  match s with
  | String c r =>
      let r' := trim_right r in
      if (is_space c && String.eqb r' "")%bool then "" else String c r'
  | EmptyString => EmptyString
  end.

(** Modelled from the spec: the trimming step of the anchor algorithm ("trim
    leading/trailing whitespace"), for [strings.TrimSpace], on ASCII white
    space. *)
Definition trim_space (s : string) : string := trim_right (trim_left s).

(** Modelled from the spec: the regular expressions of the anchor algorithm,
    which are declared in another file of the package, are classes of bytes; an
    expression matches the non-empty runs of bytes of its class
    ("collapse internal whitespace runs into a single dialect-chosen
    separator character; remove characters illegal in an identifier"). *)
Definition regexp : Type := ascii -> bool.

Fixpoint replace_runs (re : regexp) (repl : string) (in_run : bool)
    (s : string) : string :=
  match s with
  | EmptyString => EmptyString
  | String c r =>
      if re c then
        if in_run then replace_runs re repl true r
        else repl ++ replace_runs re repl true r
      else String c (replace_runs re repl false r)
  end.

Definition replace_all_string (re : regexp) (src repl : string) : string :=
  replace_runs re repl false src.

(** Modelled from the spec: [gfmWhitespaceRegex], the runs of white space. *)
Definition whitespace_regex : regexp := is_space.

(** Modelled from the spec: [gfmRemoveRegex], the runs of "characters illegal
    in an identifier": everything but letters, digits, [-] and [_]. *)
Definition remove_regex : regexp :=
  fun c =>
    negb (is_upper c || is_lower c || is_digit c
          || Ascii.eqb c "-" || Ascii.eqb c "_")%bool.

(** The characters the reference escaper takes as reserved. *)
Definition reserved (c : ascii) : bool :=
  existsb (Ascii.eqb c) ["\"; "`"; "*"; "_"; "["; "]"; "<"; ">"; "#"]%char.

(** Modelled from the spec: [escape], the Escaper, which "neutralizes
    dialect-reserved characters in arbitrary text without altering semantic
    content": a backslash is put before every reserved character. *)
Fixpoint escape_text (s : string) : string :=
  match s with
  | EmptyString => EmptyString
  | String c r =>
      if reserved c then String "\" (String c (escape_text r))
      else String c (escape_text r)
  end.

(** Modelled from the spec: [plainText], which must "strip any embedded
    markup from the heading text to obtain plain display text": the
    backslash of an escaped character is dropped. *)
Fixpoint plain_text (s : string) : string :=
  match s with
  | String "\" (String c r) => String c (plain_text r)
  | String c r => String c (plain_text r)
  | EmptyString => EmptyString
  end.

Definition helpers : Helpers := {|
  escape := escape_text;
  plainText := plain_text;
  ToLower := to_lower;
  TrimSpace := trim_space;
  Regexp := regexp;
  ReplaceAllString := replace_all_string;
  gfmWhitespaceRegex := whitespace_regex;
  gfmRemoveRegex := remove_regex
|}.

End Reference.

(** ** The type template over the Asciidoc format

    The function map of the template bound to the Asciidoc format, and a
    small documentation tree to run it on. *)

Module Sample.

(** Modelled from the spec: the templates ["doc"], ["value"], ["example"] and
    ["func"], which are defined in sibling files.  A node is rendered by
    "the same protocol at its own Level": ["doc"] writes "the node's Doc text"
    as a paragraph, ["value"] and ["example"] write their source as a code
    block, ["func"] writes the header of the function at its level and its
    declaration as a code block. *)
Definition template_doc (doc : string) : result := Asciidoc.Paragraph doc.

(** Modelled from the spec: the template ["value"], see [template_doc]. *)
Definition template_value (decl : string) : result :=
  Asciidoc.CodeBlock "go" decl.

(** Modelled from the spec: the template ["example"], see [template_doc]. *)
Definition template_example (code : string) : result :=
  Asciidoc.CodeBlock "go" code.

Record func : Type :=
  { func_Name : string; func_Level : Z; func_Decl : string }.

(** Modelled from the spec: the template ["func"], see [template_doc]. *)
Definition template_func (f : func) : result :=
  Template.seq
    (Asciidoc.RawHeader Reference.helpers (func_Level f)
       (Sprintf "func %s" [Asciidoc.Escape Reference.helpers (func_Name f)]))
    (Asciidoc.CodeBlock "go" (func_Decl f)).

Definition type_template
    : Template.lang_Type unit string string string func -> result :=
  Template.type_template
    (@Asciidoc.CodeHref unit) Asciidoc.Link
    (Asciidoc.Escape Reference.helpers) (Asciidoc.RawHeader Reference.helpers)
    Asciidoc.CodeBlock
    template_doc template_value template_example template_func.

Definition NewReader : func :=
  {| func_Name := "NewReader"; func_Level := 3;
     func_Decl := "func NewReader() *Reader" |}.

Definition ReadAll : func :=
  {| func_Name := "ReadAll"; func_Level := 3;
     func_Decl := "func ReadAll(r *Reader) string" |}.

(** A type with two functions and no constants, variables, examples or
    methods. *)
Definition Reader : Template.lang_Type unit string string string func :=
  {| Template.Name := "Reader";
     Template.Level := 2;
     Template.Location := tt;
     Template.Doc := "Reader reads.";
     Template.Decl := "type Reader struct{}";
     Template.Consts := [];
     Template.Vars := [];
     Template.Examples := [];
     Template.Funcs := [NewReader; ReadAll];
     Template.Methods := [] |}.

End Sample.

(** The template of a type executed with the methods of the Asciidoc format
    in its function map, over any helpers and any associated templates. *)
Definition asciidoc_type_template (env : Helpers)
    {lang_Location lang_Doc lang_Value lang_Example lang_Func : Type}
    (template_doc : lang_Doc -> result)
    (template_value : lang_Value -> result)
    (template_example : lang_Example -> result)
    (template_func : lang_Func -> result)
    : Template.lang_Type lang_Location lang_Doc lang_Value lang_Example
        lang_Func -> result :=
  Template.type_template
    (@Asciidoc.CodeHref lang_Location) Asciidoc.Link
    (Asciidoc.Escape env) (Asciidoc.RawHeader env) Asciidoc.CodeBlock
    template_doc template_value template_example template_func.

(** Trees whose rendering fails: a function and a type at level 0. *)
Module Unleveled.

Definition Close : Sample.func :=
  {| Sample.func_Name := "Close"; Sample.func_Level := 0;
     Sample.func_Decl := "func Close(r *Reader)" |}.

(** A type whose second function is at level 0. *)
Definition Reader : Template.lang_Type unit string string string Sample.func :=
  {| Template.Name := "Reader";
     Template.Level := 2;
     Template.Location := tt;
     Template.Doc := "Reader reads.";
     Template.Decl := "type Reader struct{}";
     Template.Consts := [];
     Template.Vars := [];
     Template.Examples := [];
     Template.Funcs := [Sample.NewReader; Close; Sample.ReadAll];
     Template.Methods := [Sample.ReadAll] |}.

(** A type at level 0. *)
Definition Writer : Template.lang_Type unit string string string Sample.func :=
  {| Template.Name := "Writer";
     Template.Level := 0;
     Template.Location := tt;
     Template.Doc := "Writer writes.";
     Template.Decl := "type Writer struct{}";
     Template.Consts := ["const Size = 8"];
     Template.Vars := [];
     Template.Examples := [];
     Template.Funcs := [Sample.NewReader];
     Template.Methods := [] |}.

End Unleveled.

(** A platform to run list entries on: [int]s of 64 bits, and a run-time
    system that grants the strings of up to [2^30] bytes. *)
Definition small_heap : Runtime :=
  {| intSize := Int64; allocates := fun n => n <=? 2 ^ 30 |}.

(** ** The shapes of the rendered text

    The vocabulary in which the properties are stated. *)

(** The error of a header level below 1 ([InvalidLevel]). *)
Definition InvalidLevel : error :=
  errors_New "format: header level cannot be less than 1".

Definition nl : string := String LF "".

(** A heading of the given depth that carries an anchor: the anchor between
    double brackets, then a line made of [depth] equal signs, a space and
    the heading text, then an empty line. *)
Definition anchored_heading (anchor : string) (depth : Z) (text : string)
    : string :=
  "[[" ++ anchor ++ "]]" ++ nl
  ++ repeat_string "=" (Z.to_nat depth) ++ " " ++ text ++ nl ++ nl.

(** A cross reference to an anchor of the same document. *)
Definition xref (anchor text : string) : string :=
  "xref:" ++ anchor ++ "[" ++ text ++ "]".

(** The deepest heading the format renders. *)
Definition max_depth : Z := 6.

(** A source listing of Asciidoc: the attribute line that tags the
    language, the fence [----] on a line of its own, the code, the closing
    fence on a line of its own. *)
Definition listing_block (language code : string) : string :=
  "[source," ++ language ++ "]" ++ nl ++ "----" ++ nl ++ code ++ nl ++ "----".

Fixpoint has_byte (c : ascii) (s : string) : bool :=
  match s with
  | EmptyString => false
  | String c' r => (Ascii.eqb c c' || has_byte c r)%bool
  end.

Definition concat_all (l : list string) : string :=
  fold_right append "" l.

(** What a template writes for the elements of a collection, in the order
    of the collection. *)
Definition renders {A : Type} (body : A -> result) (xs : list A) : string :=
  concat_all (map (fun x => fst (body x)) xs).

(** * Properties *)

(** ** Strings *)

Lemma append_nil_r (s : string) : s ++ "" = s.
Proof. induction s as [|c s IH]; simpl; [reflexivity | now rewrite IH]. Qed.

Lemma append_assoc (a b c : string) : (a ++ b) ++ c = a ++ b ++ c.
Proof. induction a as [|x a IH]; simpl; [reflexivity | now rewrite IH]. Qed.

Lemma length_append (a b : string) :
  String.length (a ++ b) = (String.length a + String.length b)%nat.
Proof. induction a as [|x a IH]; simpl; [reflexivity | now rewrite IH]. Qed.

Lemma append_inv_head (p a b : string) : p ++ a = p ++ b -> a = b.
Proof.
  induction p as [|x p IH]; simpl; intros H; [exact H|].
  injection H as H. now apply IH.
Qed.

Lemma append_inv_tail (a b t : string) : a ++ t = b ++ t -> a = b.
Proof.
  revert b. induction a as [|x a IH]; intros [|y b] H; simpl in H.
  - reflexivity.
  - apply (f_equal String.length) in H. simpl in H.
    rewrite length_append in H. lia.
  - apply (f_equal String.length) in H. simpl in H.
    rewrite length_append in H. lia.
  - injection H as Hc H. subst y. f_equal. now apply IH.
Qed.

(** In an interpreted literal [\n] is the line feed and [%%] of a format
    prints a percent sign; a raw literal keeps the backslash. *)
Example interpreted_line_feed :
  interpreted "\n====\n" = nl ++ "====" ++ nl.
Proof. reflexivity. Qed.

Example Sprintf_collapsible :
  Sprintf (interpreted ".%s\n[%%collapsible]") ["T"]
  = ".T" ++ nl ++ "[%collapsible]".
Proof. reflexivity. Qed.

Example raw_literal_has_no_line_feed :
  has_byte LF "\n====\n" = false /\ String.length "\n" = 2%nat.
Proof. split; reflexivity. Qed.

(** ** The header of the Asciidoc format *)

Section AsciidocFacts.

Variable env : Helpers.

Lemma header_invalid (level : Z) (text : string) :
  level < 1 -> Asciidoc.header env level text = ("", Some InvalidLevel).
Proof.
  intros H. unfold Asciidoc.header.
  destruct (Z.ltb_spec level 1) as [_|Hge]; [reflexivity | lia].
Qed.

Lemma header_deep (level : Z) (text : string) :
  6 <= level ->
  Asciidoc.header env level text
  = ok (anchored_heading (Asciidoc.genref env text) 6 text).
Proof.
  intros H. destruct level as [|p|p]; try lia.
  destruct p as [[[p|p|]|[p|p|]|]|[[p|p|]|[p|p|]|]|]; try lia; reflexivity.
Qed.

Lemma header_valid (level : Z) (text : string) :
  1 <= level ->
  Asciidoc.header env level text
  = ok (anchored_heading (Asciidoc.genref env text)
          (Z.min level max_depth) text).
Proof.
  intros H. unfold max_depth.
  destruct (Z_lt_le_dec level 6) as [Hlt|Hge].
  - rewrite Z.min_l by lia.
    assert (level = 1 \/ level = 2 \/ level = 3 \/ level = 4 \/ level = 5)
      as [->|[->|[->|[->| ->]]]] by lia; reflexivity.
  - rewrite Z.min_r by lia. now apply header_deep.
Qed.

Lemma LocalHref_shape (headerText : string) :
  Asciidoc.LocalHref env headerText
  = ok (xref (Asciidoc.genref env headerText) headerText).
Proof. reflexivity. Qed.

(** C2: [Header] and [RawHeader] fail with the [InvalidLevel] error for
    every level below 1; for every level from 1 on they succeed and render
    the heading at depth [min level 6], so that every level above 6 is
    rendered as level 6. *)
Theorem header_level_policy (level : Z) (text : string) :
  (level < 1 ->
   Asciidoc.Header env level text = ("", Some InvalidLevel)
   /\ Asciidoc.RawHeader env level text = ("", Some InvalidLevel))
  /\ (1 <= level ->
      Asciidoc.Header env level text
      = ok (anchored_heading (Asciidoc.genref env (escape env text))
              (Z.min level max_depth) (escape env text))
      /\ Asciidoc.RawHeader env level text
         = ok (anchored_heading (Asciidoc.genref env text)
                 (Z.min level max_depth) text))
  /\ (max_depth < level ->
      Asciidoc.Header env level text = Asciidoc.Header env max_depth text
      /\ Asciidoc.RawHeader env level text
         = Asciidoc.RawHeader env max_depth text).
Proof.
  unfold Asciidoc.Header, Asciidoc.RawHeader.
  split; [|split]; intros Hlevel; split.
  - now apply header_invalid.
  - now apply header_invalid.
  - now apply header_valid.
  - now apply header_valid.
  - unfold max_depth in *. rewrite header_deep by lia. symmetry.
    apply header_deep. lia.
  - unfold max_depth in *. rewrite header_deep by lia. symmetry.
    apply header_deep. lia.
Qed.

(** C4: for a non-empty header text and a level from 1 on, the anchor that
    [LocalHref] puts in its cross reference is the anchor that [RawHeader]
    puts in front of the heading of the same text: both are [genref] of the
    text. *)
Theorem local_href_targets_raw_header (level : Z) (headerText : string) :
  headerText <> "" ->
  1 <= level ->
  exists anchor : string,
    anchor = Asciidoc.genref env headerText
    /\ Asciidoc.LocalHref env headerText = ok (xref anchor headerText)
    /\ Asciidoc.RawHeader env level headerText
       = ok (anchored_heading anchor (Z.min level max_depth) headerText).
Proof.
  intros _ Hlevel. exists (Asciidoc.genref env headerText).
  split; [reflexivity|]. split; [apply LocalHref_shape|].
  now apply header_valid.
Qed.

(** C5: [Header] escapes its text and hands it to [RawHeader], at every
    level. *)
Theorem Header_escapes_then_RawHeader (level : Z) (text : string) :
  Asciidoc.Header env level text
  = Asciidoc.RawHeader env level (Asciidoc.Escape env text).
Proof. reflexivity. Qed.

(** C8, as amended: when the normalization of a heading text is the empty
    string, the anchor that the header and link operations embed is the
    empty string; no fallback anchor takes its place. *)
Theorem empty_slug_gives_empty_anchor (level : Z) (text : string) :
  1 <= level ->
  Asciidoc.genref env text = "" ->
  Asciidoc.RawHeader env level text
  = ok (anchored_heading "" (Z.min level max_depth) text)
  /\ Asciidoc.LocalHref env text = ok (xref "" text).
Proof.
  intros Hlevel Hslug. split.
  - unfold Asciidoc.RawHeader. rewrite header_valid by assumption.
    now rewrite Hslug.
  - rewrite LocalHref_shape. now rewrite Hslug.
Qed.

Lemma anchored_heading_inj (a b : string) (depth : Z) (text : string) :
  anchored_heading a depth text = anchored_heading b depth text -> a = b.
Proof.
  unfold anchored_heading. intros H.
  apply append_inv_head in H. now apply append_inv_tail in H.
Qed.

(** C9: the anchor in front of [Header level text] is [genref] of the
    escaped text, the anchor in [LocalHref text] is [genref] of the text as
    it is; the heading carries the anchor of the link exactly when the two
    slugs are equal. *)
Theorem header_anchor_matches_local_href (level : Z) (text : string) :
  1 <= level ->
  Asciidoc.Header env level text
  = ok (anchored_heading (Asciidoc.genref env (escape env text))
          (Z.min level max_depth) (escape env text))
  /\ Asciidoc.LocalHref env text = ok (xref (Asciidoc.genref env text) text)
  /\ (Asciidoc.Header env level text
      = ok (anchored_heading (Asciidoc.genref env text)
              (Z.min level max_depth) (escape env text))
      <-> Asciidoc.genref env (escape env text) = Asciidoc.genref env text).
Proof.
  intros Hlevel. unfold Asciidoc.Header.
  rewrite header_valid by assumption.
  split; [reflexivity|]. split; [apply LocalHref_shape|]. split.
  - intros H.
    apply anchored_heading_inj
      with (depth := Z.min level max_depth) (text := escape env text).
    unfold ok in H. congruence.
  - intros ->. reflexivity.
Qed.

End AsciidocFacts.

(** ** Text-only operations of the Asciidoc format *)

(** C1: the split form of the accordion does not give the text of
    [Accordion].  [AccordionHeader] writes a stray [n] in front of the
    [[%collapsible]] line and does not replace an empty title by
    ["Description"], so the two texts differ for every title and body. *)
Theorem accordion_split_differs (title body : string) :
  fst (Asciidoc.AccordionHeader title) ++ body
  ++ fst Asciidoc.AccordionTerminator
  <> fst (Asciidoc.Accordion title body).
Proof.
  unfold Asciidoc.AccordionHeader, Asciidoc.Accordion.
  destruct (String.eqb_spec "" title) as [<-|Hne]; simpl; intros H.
  - discriminate H.
  - injection H as H. rewrite append_assoc in H.
    apply append_inv_head in H. discriminate H.
Qed.

Lemma Paragraph_shape (text : string) :
  Asciidoc.Paragraph text = ok (text ++ nl ++ nl).
Proof. reflexivity. Qed.

(** C3, as amended: [Bold] and [ListEntry] (at every depth) return the
    empty string for the empty text; [Paragraph] returns its text followed
    by an empty line, which for the empty text is the two line feeds. *)
Theorem empty_text_policy :
  Asciidoc.Bold "" = ok ""
  /\ (forall (rt : Runtime) (depth : Z),
        Asciidoc.ListEntry rt depth "" = Returns (ok ""))
  /\ (forall text : string, Asciidoc.Paragraph text = ok (text ++ nl ++ nl))
  /\ Asciidoc.Paragraph "" = ok (nl ++ nl).
Proof.
  split; [reflexivity|]. split; [intros rt depth; reflexivity|].
  split; [apply Paragraph_shape | reflexivity].
Qed.

(** C3, as stated, fails: the paragraph of the empty text is not empty. *)
Lemma empty_text_policy_fails_for_Paragraph :
  ~ (Asciidoc.Bold "" = ok ""
     /\ (forall (rt : Runtime) (depth : Z),
           Asciidoc.ListEntry rt depth "" = Returns (ok ""))
     /\ Asciidoc.Paragraph "" = ok "").
Proof. intros (_ & _ & H). discriminate H. Qed.

Lemma CodeBlock_empty_code (language : string) :
  Asciidoc.CodeBlock language "" = ok "".
Proof. reflexivity. Qed.

Lemma CodeBlock_default_language (code : string) :
  Asciidoc.CodeBlock "" code = Asciidoc.CodeBlock "go" code.
Proof. reflexivity. Qed.

(** C7: [CodeBlock] returns the empty string for empty code and tags the
    block with ["go"] when no language is given, but what it returns for
    [CodeBlock "" "fmt.Println(1)"] is not a source listing: the format is a
    raw literal, so every [\n] of it comes out as a backslash and an [n]
    and the result has no line feed at all. *)
Theorem CodeBlock_is_not_a_listing :
  (forall language : string, Asciidoc.CodeBlock language "" = ok "")
  /\ (forall code : string,
        Asciidoc.CodeBlock "" code = Asciidoc.CodeBlock "go" code)
  /\ Asciidoc.CodeBlock "" "fmt.Println(1)"
     = ok "[source,go]\n----\nfmt.Println(1)\n----"
  /\ has_byte LF (fst (Asciidoc.CodeBlock "" "fmt.Println(1)")) = false
  /\ Asciidoc.CodeBlock "" "fmt.Println(1)"
     <> ok (listing_block "go" "fmt.Println(1)").
Proof.
  split; [apply CodeBlock_empty_code|].
  split; [apply CodeBlock_default_language|].
  split; [reflexivity|]. split; [reflexivity|].
  intros H. discriminate H.
Qed.





(** What [strings.Repeat] returns when it returns, and for which counts it
    can: whatever the run-time system grants. *)
Lemma Repeat_returned (rt : Runtime) (s v : string) (count : Z) :
  Repeat rt s count = Returns v ->
  0 <= count
  /\ Z.of_nat (String.length s) * count <= maxInt rt
  /\ v = repeat_string s (Z.to_nat count).
Proof.
  unfold Repeat.
  destruct (Z.ltb_spec count 0) as [Hneg|Hge]; [discriminate|].
  destruct (Z.ltb_spec (maxInt rt) (Z.of_nat (String.length s) * count))
    as [Hover|Hfit]; [discriminate|].
  destruct (_ || _)%bool; [|discriminate].
  intros H. injection H as <-. repeat split; assumption.
Qed.

Lemma ListEntry_nonempty (rt : Runtime) (depth : Z) (text : string) :
  text <> "" ->
  Asciidoc.ListEntry rt depth text
  = match Repeat rt "**" depth with
    | Panics p => Panics p
    | Returns prefix => Returns (ok (prefix ++ " " ++ text ++ nl))
    end.
Proof.
  intros Hne. unfold Asciidoc.ListEntry.
  destruct (String.eqb_spec text "") as [->|_]; [congruence|].
  destruct (Repeat rt "**" depth); reflexivity.
Qed.

(** A list entry that is returned is the entry of a depth that is not
    negative and whose prefix fits an [int]. *)
Lemma ListEntry_returned (rt : Runtime) (depth : Z) (text : string)
    (r : result) :
  text <> "" ->
  Asciidoc.ListEntry rt depth text = Returns r ->
  0 <= depth
  /\ 2 * depth <= maxInt rt
  /\ r = ok (repeat_string "**" (Z.to_nat depth) ++ " " ++ text ++ nl).
Proof.
  intros Hne. rewrite ListEntry_nonempty by assumption.
  destruct (Repeat rt "**" depth) as [prefix|p] eqn:HR; [|discriminate].
  intros H. injection H as <-.
  apply Repeat_returned in HR. simpl String.length in HR.
  destruct HR as (H0 & Hmax & ->). repeat split; assumption.
Qed.



(** ** The template of a type *)

Section TypeTemplateFacts.

Variables lang_Location lang_Doc lang_Value lang_Example lang_Func : Type.
Variable codeHref : lang_Location -> result.
Variable link : string -> string -> result.
Variable escape : string -> string.
Variable rawHeader : Z -> string -> result.
Variable codeBlock : string -> string -> result.
Variable template_doc : lang_Doc -> result.
Variable template_value : lang_Value -> result.
Variable template_example : lang_Example -> result.
Variable template_func : lang_Func -> result.

Lemma seq_ok (a b : result) (x y : string) (e : option error) :
  a = (x, None) -> b = (y, e) -> Template.seq a b = (x ++ y, e).
Proof. intros -> ->. reflexivity. Qed.

Lemma range_ok {A : Type} (body : A -> result) (xs : list A) :
  Forall (fun x => snd (body x) = None) xs ->
  Template.range xs body = (renders body xs, None).
Proof.
  induction 1 as [|x xs Hx _ IH]; [reflexivity|].
  unfold renders. simpl. destruct (body x) as [out e] eqn:Hb.
  simpl in Hx. subst e. rewrite IH. reflexivity.
Qed.

Lemma Sprintf_type (l : string) : Sprintf "type %s" [l] = "type " ++ l.
Proof. simpl. now rewrite append_nil_r. Qed.

Lemma type_template_ok
    (t : Template.lang_Type lang_Location lang_Doc lang_Value lang_Example
           lang_Func)
    (href l h d c : string) :
  codeHref (Template.Location t) = (href, None) ->
  link (escape (Template.Name t)) href = (l, None) ->
  rawHeader (Template.Level t) ("type " ++ l) = (h, None) ->
  template_doc (Template.Doc t) = (d, None) ->
  codeBlock "go" (Template.Decl t) = (c, None) ->
  Forall (fun v => snd (template_value v) = None) (Template.Consts t) ->
  Forall (fun v => snd (template_value v) = None) (Template.Vars t) ->
  Forall (fun x => snd (template_example x) = None) (Template.Examples t) ->
  Forall (fun f => snd (template_func f) = None) (Template.Funcs t) ->
  Forall (fun f => snd (template_func f) = None) (Template.Methods t) ->
  Template.type_template codeHref link escape rawHeader codeBlock
    template_doc template_value template_example template_func t
  = (h ++ d ++ c
     ++ renders template_value (Template.Consts t)
     ++ renders template_value (Template.Vars t)
     ++ renders template_example (Template.Examples t)
     ++ renders template_func (Template.Funcs t)
     ++ renders template_func (Template.Methods t), None).
Proof.
  intros Hhref Hlink Hheader Hdoc Hdecl Hc Hv He Hf Hm.
  unfold Template.type_template.
  rewrite Hhref. unfold Template.pipe at 1. rewrite Hlink.
  unfold Template.pipe. rewrite Sprintf_type, Hheader.
  repeat (apply seq_ok;
          [reflexivity || eassumption || (apply range_ok; assumption)|]).
  apply range_ok. assumption.
Qed.

(** C6: when no action fails, the template of a type writes, in this
    order, the header of the type at its level (over the link that combines
    the escaped name with the code link), what the ["doc"] template writes
    for its documentation, its declaration as a code block, and then what
    the templates write for its constants, variables, examples, functions
    and methods, each collection in its own order.  An empty collection
    writes nothing: for a type with two functions and no constants,
    variables or examples the text is the header, the documentation, the
    declaration and the renders of the two functions in order, followed by
    those of the methods, hence by nothing when there is no method. *)
Theorem type_template_order
    (t : Template.lang_Type lang_Location lang_Doc lang_Value lang_Example
           lang_Func)
    (href l h d c : string) :
  codeHref (Template.Location t) = (href, None) ->
  link (escape (Template.Name t)) href = (l, None) ->
  rawHeader (Template.Level t) ("type " ++ l) = (h, None) ->
  template_doc (Template.Doc t) = (d, None) ->
  codeBlock "go" (Template.Decl t) = (c, None) ->
  Forall (fun v => snd (template_value v) = None) (Template.Consts t) ->
  Forall (fun v => snd (template_value v) = None) (Template.Vars t) ->
  Forall (fun x => snd (template_example x) = None) (Template.Examples t) ->
  Forall (fun f => snd (template_func f) = None) (Template.Funcs t) ->
  Forall (fun f => snd (template_func f) = None) (Template.Methods t) ->
  Template.type_template codeHref link escape rawHeader codeBlock
    template_doc template_value template_example template_func t
  = (h ++ d ++ c
     ++ renders template_value (Template.Consts t)
     ++ renders template_value (Template.Vars t)
     ++ renders template_example (Template.Examples t)
     ++ renders template_func (Template.Funcs t)
     ++ renders template_func (Template.Methods t), None)
  /\ (forall f1 f2 : lang_Func,
        Template.Consts t = [] -> Template.Vars t = [] ->
        Template.Examples t = [] -> Template.Funcs t = [f1; f2] ->
        Template.type_template codeHref link escape rawHeader codeBlock
    template_doc template_value template_example template_func t
        = (h ++ d ++ c ++ fst (template_func f1) ++ fst (template_func f2)
           ++ renders template_func (Template.Methods t), None)
        /\ (Template.Methods t = [] ->
            Template.type_template codeHref link escape rawHeader codeBlock
    template_doc template_value template_example template_func t
            = (h ++ d ++ c ++ fst (template_func f1)
               ++ fst (template_func f2), None))).
Proof.
  intros Hhref Hlink Hheader Hdoc Hdecl Hc Hv He Hf Hm.
  pose proof (type_template_ok t href l h d c Hhref Hlink Hheader Hdoc Hdecl
                Hc Hv He Hf Hm) as Hall.
  split; [exact Hall|].
  intros f1 f2 Ec Ev Ee Ef.
  rewrite Ec, Ev, Ee, Ef in Hall. unfold renders at 1 2 3 4 in Hall.
  simpl in Hall. rewrite append_nil_r, append_assoc in Hall.
  split; [exact Hall|].
  intros Em. rewrite Hall, Em. unfold renders. simpl.
  now rewrite append_nil_r.
Qed.

End TypeTemplateFacts.

(** ** The properties at work on concrete texts *)

Lemma header_level_policy_witness :
  (0 < 1
   /\ Asciidoc.Header Reference.helpers 0 "My Function"
      = ("", Some InvalidLevel))
  /\ (1 <= 9
      /\ Asciidoc.Header Reference.helpers 9 "My Function"
         = ok (anchored_heading "my-function" 6 "My Function"))
  /\ (max_depth < 9
      /\ Asciidoc.RawHeader Reference.helpers 9 "My Function"
         = Asciidoc.RawHeader Reference.helpers max_depth "My Function").
Proof.
  split; [|split].
  - assert (H : 0 < 1) by lia. split; [exact H|].
    exact (proj1
             (proj1 (header_level_policy Reference.helpers 0 "My Function") H)).
  - assert (H : 1 <= 9) by lia. split; [exact H|].
    exact (proj1
             (proj1 (proj2 (header_level_policy Reference.helpers 9
                              "My Function")) H)).
  - assert (H : max_depth < 9) by (unfold max_depth; lia). split; [exact H|].
    exact (proj2
             (proj2 (proj2 (header_level_policy Reference.helpers 9
                              "My Function")) H)).
Defined.

Lemma local_href_targets_raw_header_witness :
  exists anchor : string,
    anchor = "my-function"
    /\ Asciidoc.LocalHref Reference.helpers "My Function"
       = ok (xref anchor "My Function")
    /\ Asciidoc.RawHeader Reference.helpers 2 "My Function"
       = ok (anchored_heading anchor 2 "My Function").
Proof.
  apply (local_href_targets_raw_header Reference.helpers 2 "My Function").
  - discriminate.
  - lia.
Defined.

Lemma empty_slug_gives_empty_anchor_witness :
  Asciidoc.RawHeader Reference.helpers 1 "!!" = ok (anchored_heading "" 1 "!!")
  /\ Asciidoc.LocalHref Reference.helpers "!!" = ok (xref "" "!!").
Proof.
  apply (empty_slug_gives_empty_anchor Reference.helpers 1 "!!").
  - lia.
  - reflexivity.
Defined.

(** C8, as stated, fails: the text ["!!"] has the empty slug, and the
    heading and the link made of it carry the empty anchor, not a fallback
    one. *)
Lemma empty_slug_has_no_fallback_anchor :
  Asciidoc.genref Reference.helpers "!!" = ""
  /\ Asciidoc.RawHeader Reference.helpers 1 "!!"
     = ok (anchored_heading "" 1 "!!")
  /\ Asciidoc.LocalHref Reference.helpers "!!" = ok (xref "" "!!")
  /\ ~ (exists anchor : string,
          anchor <> ""
          /\ Asciidoc.RawHeader Reference.helpers 1 "!!"
             = ok (anchored_heading anchor 1 "!!")).
Proof.
  split; [reflexivity|]. split; [reflexivity|]. split; [reflexivity|].
  intros (anchor & Hne & H). apply Hne. symmetry.
  apply anchored_heading_inj with (depth := 1) (text := "!!").
  change (Asciidoc.RawHeader Reference.helpers 1 "!!")
    with (ok (anchored_heading "" 1 "!!")) in H.
  unfold ok in H. congruence.
Qed.

Lemma header_anchor_matches_local_href_witness :
  Asciidoc.Header Reference.helpers 2 "a*b"
  = ok (anchored_heading "ab" 2 "a\*b")
  /\ Asciidoc.LocalHref Reference.helpers "a*b" = ok (xref "ab" "a*b")
  /\ (Asciidoc.Header Reference.helpers 2 "a*b"
      = ok (anchored_heading "ab" 2 "a\*b")
      <-> "ab" = "ab").
Proof.
  apply (header_anchor_matches_local_href Reference.helpers 2 "a*b"). lia.
Defined.


Lemma type_template_order_witness :
  Sample.type_template Sample.Reader
  = (fst (Asciidoc.RawHeader Reference.helpers 2 "type Reader")
     ++ fst (Asciidoc.Paragraph "Reader reads.")
     ++ fst (Asciidoc.CodeBlock "go" "type Reader struct{}")
     ++ fst (Sample.template_func Sample.NewReader)
     ++ fst (Sample.template_func Sample.ReadAll), None).
Proof.
  refine (proj2
            (proj2
               (type_template_order unit string string string Sample.func
                  (@Asciidoc.CodeHref unit) Asciidoc.Link
                  (Asciidoc.Escape Reference.helpers)
                  (Asciidoc.RawHeader Reference.helpers) Asciidoc.CodeBlock
                  Sample.template_doc Sample.template_value
                  Sample.template_example Sample.template_func
                  Sample.Reader "" "Reader" _ _ _
                  _ _ _ _ _ _ _ _ _ _)
               Sample.NewReader Sample.ReadAll _ _ _ _) _);
    try reflexivity; repeat constructor.
Defined.

(** * Further properties of the format *)

(** ** Empty texts and empty outputs *)

Lemma append_eq_nil (a b : string) : a ++ b = "" -> a = "".
Proof. destruct a; [reflexivity | discriminate]. Qed.

(** X1: the operations that test their text give the empty string exactly
    for the empty text: [Bold], [CodeBlock] (on its code), [Link] (on its
    text) and, whenever it returns, [ListEntry]. *)
Theorem guarded_output_empty_iff (text : string) :
  (fst (Asciidoc.Bold text) = "" <-> text = "")
  /\ (forall language : string,
        fst (Asciidoc.CodeBlock language text) = "" <-> text = "")
  /\ (forall href : string, fst (Asciidoc.Link text href) = "" <-> text = "")
  /\ (forall (rt : Runtime) (depth : Z) (r : result),
        Asciidoc.ListEntry rt depth text = Returns r ->
        (fst r = "" <-> text = "")).
Proof.
  split; [|split; [|split]].
  - unfold Asciidoc.Bold.
    destruct (String.eqb_spec text "") as [->|Hne]; simpl;
      split; (reflexivity || congruence || discriminate).
  - intros language. unfold Asciidoc.CodeBlock.
    destruct (String.eqb_spec text "") as [->|Hne]; simpl;
      split; (reflexivity || congruence || discriminate).
  - intros href. unfold Asciidoc.Link.
    destruct (String.eqb_spec text "") as [->|Hne]; simpl;
      [split; reflexivity|].
    destruct (String.eqb_spec href "") as [->|Hh]; simpl.
    + split; [intros H; congruence | congruence].
    + split; [|congruence]. intros H. apply append_eq_nil in H. congruence.
  - intros rt depth r. unfold Asciidoc.ListEntry.
    destruct (String.eqb_spec text "") as [->|Hne].
    + intros H. injection H as <-. split; reflexivity.
    + destruct (Repeat rt "**" depth) as [prefix|p]; [|discriminate].
      intros H. injection H as <-. simpl. split; [|congruence].
      intros H. destruct prefix; simpl in H; discriminate H.
Qed.

(** X2: the Asciidoc format has no code links: [CodeHref] gives the empty
    reference at every location, and [Link] on it gives back the text as it
    is, the empty text included. *)
Theorem Link_of_CodeHref {lang_Location : Type} (loc : lang_Location)
    (text : string) :
  Asciidoc.Link text (fst (Asciidoc.CodeHref loc)) = ok text.
Proof.
  unfold Asciidoc.Link, Asciidoc.CodeHref. simpl.
  destruct (String.eqb_spec text "") as [->|Hne]; reflexivity.
Qed.

(** X3: the text is recoverable from its markup: [Bold] and [Paragraph] are
    injective, and so is [CodeBlock] in its code under one language. *)
Theorem text_is_recoverable (a b : string) :
  (Asciidoc.Bold a = Asciidoc.Bold b -> a = b)
  /\ (Asciidoc.Paragraph a = Asciidoc.Paragraph b -> a = b)
  /\ (forall language : string,
        Asciidoc.CodeBlock language a = Asciidoc.CodeBlock language b ->
        a = b).
Proof.
  split; [|split].
  - unfold Asciidoc.Bold.
    destruct (String.eqb_spec a "") as [->|Ha];
      destruct (String.eqb_spec b "") as [->|Hb]; simpl; intros H;
      try reflexivity; try discriminate H.
    injection H as H. now apply append_inv_tail in H.
  - unfold Asciidoc.Paragraph. simpl. intros H. injection H as H.
    now apply append_inv_tail in H.
  - intros language. unfold Asciidoc.CodeBlock.
    destruct (String.eqb_spec a "") as [->|Ha];
      destruct (String.eqb_spec b "") as [->|Hb]; simpl;
      try reflexivity; try discriminate.
    intros H. injection H as H. apply append_inv_head in H.
    injection H as H. now apply append_inv_tail in H.
Qed.

(** ** Depths *)

(** A run of markers in front of a space tells how long it is, when the
    marker does not begin with a space. *)
Lemma marker_run_inj (c : ascii) (m a b : string) (n k : nat) :
  c <> " "%char ->
  repeat_string (String c m) n ++ String " " a
  = repeat_string (String c m) k ++ String " " b ->
  n = k /\ a = b.
Proof.
  intros Hc. revert k. induction n as [|n IH]; intros [|k] H.
  - simpl in H. injection H as H. now split.
  - simpl in H. injection H as Hsp _. congruence.
  - simpl in H. injection H as Hsp _. congruence.
  - change (repeat_string (String c m) (S n))
      with (String c m ++ repeat_string (String c m) n) in H.
    change (repeat_string (String c m) (S k))
      with (String c m ++ repeat_string (String c m) k) in H.
    rewrite !append_assoc in H. apply append_inv_head in H.
    apply IH in H. destruct H as [-> ->]. now split.
Qed.

(** X4: a list entry that is returned tells its depth and its text: when
    [ListEntry] returns one and the same value for two depths and two
    non-empty texts, the depths are equal and the texts are equal, even if
    a text begins with asterisks itself. *)
Theorem ListEntry_injective (rt : Runtime) (d1 d2 : Z) (t1 t2 : string)
    (r : result) :
  t1 <> "" -> t2 <> "" ->
  Asciidoc.ListEntry rt d1 t1 = Returns r ->
  Asciidoc.ListEntry rt d2 t2 = Returns r ->
  d1 = d2 /\ t1 = t2.
Proof.
  intros H1 H2 Hr1 Hr2.
  apply ListEntry_returned in Hr1; [|assumption].
  apply ListEntry_returned in Hr2; [|assumption].
  destruct Hr1 as (Hd1 & _ & E1). destruct Hr2 as (Hd2 & _ & E2).
  rewrite E1 in E2. unfold ok in E2. injection E2 as H.
  apply (marker_run_inj "*"%char "*") in H; [|discriminate].
  destruct H as [Hn Ht]. split; [lia|].
  now apply append_inv_tail in Ht.
Qed.

Section FurtherHeaderFacts.

Variable env : Helpers.

(** X5: at one text, two levels from 1 on give the same header exactly when
    they are rendered at the same depth, that of the level or 6: the levels
    1 to 6 are told apart, and all the levels from 6 on give one header. *)
Theorem RawHeader_depth_recoverable (l1 l2 : Z) (text : string) :
  1 <= l1 -> 1 <= l2 ->
  (Asciidoc.RawHeader env l1 text = Asciidoc.RawHeader env l2 text
   <-> Z.min l1 max_depth = Z.min l2 max_depth).
Proof.
  intros H1 H2. unfold Asciidoc.RawHeader.
  rewrite !header_valid by assumption. split.
  - intros H. unfold ok in H. injection H as H.
    apply (append_inv_head (Asciidoc.genref env text)) in H.
    injection H as H.
    apply (marker_run_inj "="%char "") in H; [|discriminate].
    unfold max_depth in *. lia.
  - intros ->. reflexivity.
Qed.

End FurtherHeaderFacts.

(** X6: under one body, two titles give the same accordion exactly when
    they are displayed alike, the empty title being displayed as
    ["Description"]. *)
Theorem Accordion_title (t1 t2 body : string) :
  Asciidoc.Accordion t1 body = Asciidoc.Accordion t2 body
  <-> (if String.eqb "" t1 then "Description" else t1)
      = (if String.eqb "" t2 then "Description" else t2).
Proof.
  unfold Asciidoc.Accordion. simpl.
  set (a := if String.eqb "" t1 then "Description" else t1).
  set (b := if String.eqb "" t2 then "Description" else t2).
  split.
  - intros H. injection H as H. now apply append_inv_tail in H.
  - intros ->. reflexivity.
Qed.

(** ** Success and failure of the type template *)

Lemma seq_snd_none (a b : result) :
  snd (Template.seq a b) = None -> snd a = None /\ snd b = None.
Proof.
  destruct a as [x [e|]], b as [y e']; simpl; intros H;
    [discriminate H | now split].
Qed.

Lemma range_snd_none {A : Type} (body : A -> result) (xs : list A) :
  snd (Template.range xs body) = None ->
  Forall (fun x => snd (body x) = None) xs.
Proof.
  induction xs as [|x xs IH]; simpl; intros H; [constructor|].
  apply seq_snd_none in H. destruct H as [Hx Hxs].
  constructor; [exact Hx | now apply IH].
Qed.

Lemma pipe_snd_none (r : result) (k : string -> result) :
  snd (Template.pipe r k) = None ->
  exists v : string, r = (v, None) /\ snd (k v) = None.
Proof.
  destruct r as [v [e|]]; simpl; intros H; [discriminate H|].
  exists v. now split.
Qed.

Lemma seq_stops (out : string) (e : error) (b : result) :
  Template.seq (out, Some e) b = (out, Some e).
Proof. reflexivity. Qed.

Lemma range_fail {A : Type} (body : A -> result) (pre post : list A) (x : A)
    (out : string) (e : error) :
  Forall (fun y => snd (body y) = None) pre ->
  body x = (out, Some e) ->
  Template.range (pre ++ x :: post)%list body
  = (renders body pre ++ out, Some e).
Proof.
  intros Hpre Hx. induction Hpre as [|y pre Hy _ IH]; simpl.
  - rewrite Hx. reflexivity.
  - rewrite IH. unfold renders. simpl.
    destruct (body y) as [o e'] eqn:Hb. simpl in Hy. subst e'.
    simpl. now rewrite append_assoc.
Qed.

Lemma result_eta (r : result) : snd r = None -> r = (fst r, None).
Proof. destruct r as [s e]; simpl; intros ->; reflexivity. Qed.

Section FurtherTemplateFacts.

Variables lang_Location lang_Doc lang_Value lang_Example lang_Func : Type.
Variable codeHref : lang_Location -> result.
Variable link : string -> string -> result.
Variable escape : string -> string.
Variable rawHeader : Z -> string -> result.
Variable codeBlock : string -> string -> result.
Variable template_doc : lang_Doc -> result.
Variable template_value : lang_Value -> result.
Variable template_example : lang_Example -> result.
Variable template_func : lang_Func -> result.

(** X7: the template of a type ends without error exactly when every
    action of it does: the three commands of the header pipeline, the
    ["doc"] template, the code block of the declaration, and the template of
    every element of the five collections. *)
Theorem type_template_succeeds_iff
    (t : Template.lang_Type lang_Location lang_Doc lang_Value lang_Example
           lang_Func) :
  snd (Template.type_template codeHref link escape rawHeader codeBlock
         template_doc template_value template_example template_func t)
  = None
  <-> ((exists href l : string,
          codeHref (Template.Location t) = (href, None)
          /\ link (escape (Template.Name t)) href = (l, None)
          /\ snd (rawHeader (Template.Level t) ("type " ++ l)) = None)
       /\ snd (template_doc (Template.Doc t)) = None
       /\ snd (codeBlock "go" (Template.Decl t)) = None
       /\ Forall (fun v => snd (template_value v) = None) (Template.Consts t)
       /\ Forall (fun v => snd (template_value v) = None) (Template.Vars t)
       /\ Forall (fun x => snd (template_example x) = None)
            (Template.Examples t)
       /\ Forall (fun f => snd (template_func f) = None) (Template.Funcs t)
       /\ Forall (fun f => snd (template_func f) = None)
            (Template.Methods t)).
Proof.
  split.
  - unfold Template.type_template. intros H.
    apply seq_snd_none in H. destruct H as [Hh H].
    apply seq_snd_none in H. destruct H as [Hd H].
    apply seq_snd_none in H. destruct H as [Hb H].
    apply seq_snd_none in H. destruct H as [Hc H].
    apply seq_snd_none in H. destruct H as [Hv H].
    apply seq_snd_none in H. destruct H as [He H].
    apply seq_snd_none in H. destruct H as [Hf Hm].
    apply pipe_snd_none in Hh. destruct Hh as (href & Hhref & Hh).
    apply pipe_snd_none in Hh. destruct Hh as (l & Hl & Hh).
    rewrite Sprintf_type in Hh.
    split; [exists href, l; now repeat split|].
    repeat split; try assumption; now apply range_snd_none.
  - intros ((href & l & Hhref & Hl & Hh) & Hd & Hb & Hc & Hv & He & Hf & Hm).
    rewrite (type_template_ok _ _ _ _ _ codeHref link escape rawHeader
               codeBlock template_doc template_value template_example
               template_func t href l _ _ _ Hhref Hl (result_eta _ Hh)
               (result_eta _ Hd) (result_eta _ Hb) Hc Hv He Hf Hm).
    reflexivity.
Qed.

(** X10: the template stops at the first function whose template fails:
    when everything before it is written without error, the text ends with
    what that template wrote, the error is its error, and neither the
    functions after it nor any method is rendered. *)
Theorem type_template_stops_at_failing_func
    (t : Template.lang_Type lang_Location lang_Doc lang_Value lang_Example
           lang_Func)
    (href l h d c out : string) (e : error) (pre post : list lang_Func)
    (f : lang_Func) :
  codeHref (Template.Location t) = (href, None) ->
  link (escape (Template.Name t)) href = (l, None) ->
  rawHeader (Template.Level t) ("type " ++ l) = (h, None) ->
  template_doc (Template.Doc t) = (d, None) ->
  codeBlock "go" (Template.Decl t) = (c, None) ->
  Forall (fun v => snd (template_value v) = None) (Template.Consts t) ->
  Forall (fun v => snd (template_value v) = None) (Template.Vars t) ->
  Forall (fun x => snd (template_example x) = None) (Template.Examples t) ->
  Template.Funcs t = (pre ++ f :: post)%list ->
  Forall (fun g => snd (template_func g) = None) pre ->
  template_func f = (out, Some e) ->
  Template.type_template codeHref link escape rawHeader codeBlock
    template_doc template_value template_example template_func t
  = (h ++ d ++ c
     ++ renders template_value (Template.Consts t)
     ++ renders template_value (Template.Vars t)
     ++ renders template_example (Template.Examples t)
     ++ renders template_func pre ++ out, Some e).
Proof.
  intros Hhref Hlink Hheader Hdoc Hdecl Hc Hv He Hfuncs Hpre Hf.
  unfold Template.type_template.
  rewrite Hhref. unfold Template.pipe at 1. rewrite Hlink.
  unfold Template.pipe. rewrite Sprintf_type, Hheader.
  repeat (apply seq_ok;
          [reflexivity || eassumption || (apply range_ok; assumption)|]).
  rewrite Hfuncs, (range_fail template_func pre post f out e Hpre Hf).
  apply seq_stops.
Qed.

End FurtherTemplateFacts.

(** ** The type template with the Asciidoc format *)

Lemma Link_empty_href (text : string) : Asciidoc.Link text "" = ok text.
Proof.
  unfold Asciidoc.Link.
  destruct (String.eqb_spec text "") as [->|Hne]; reflexivity.
Qed.

Lemma CodeBlock_no_error (language code : string) :
  snd (Asciidoc.CodeBlock language code) = None.
Proof.
  unfold Asciidoc.CodeBlock. destruct (String.eqb code ""); reflexivity.
Qed.

Section AsciidocTemplateFacts.

Variable env : Helpers.
Variables lang_Location lang_Doc lang_Value lang_Example lang_Func : Type.
Variable template_doc : lang_Doc -> result.
Variable template_value : lang_Value -> result.
Variable template_example : lang_Example -> result.
Variable template_func : lang_Func -> result.

(** X8: with the Asciidoc format, a type whose level is below 1 is not
    rendered at all: the template writes nothing and ends with the
    [InvalidLevel] error, whatever the type holds. *)
Theorem asciidoc_type_template_invalid_level
    (t : Template.lang_Type lang_Location lang_Doc lang_Value lang_Example
           lang_Func) :
  Template.Level t < 1 ->
  asciidoc_type_template env template_doc template_value template_example
    template_func t
  = ("", Some InvalidLevel).
Proof.
  intros Hlevel. unfold asciidoc_type_template, Template.type_template.
  unfold Asciidoc.CodeHref at 1. unfold Template.pipe at 1.
  rewrite Link_empty_href. unfold ok, Template.pipe.
  unfold Asciidoc.RawHeader. rewrite header_invalid by assumption.
  apply seq_stops.
Qed.

(** X9: with the Asciidoc format, a type whose level is at least 1 and whose
    associated templates do not fail is rendered without error.  Its text
    begins with the heading of ["type "] followed by the escaped name, as
    deep as the level or 6, whose anchor is the slug of that whole heading
    text; no code link is part of it.  Then come the documentation, the code
    block of the declaration and the five collections. *)
Theorem asciidoc_type_template_text
    (t : Template.lang_Type lang_Location lang_Doc lang_Value lang_Example
           lang_Func) :
  1 <= Template.Level t ->
  snd (template_doc (Template.Doc t)) = None ->
  Forall (fun v => snd (template_value v) = None) (Template.Consts t) ->
  Forall (fun v => snd (template_value v) = None) (Template.Vars t) ->
  Forall (fun x => snd (template_example x) = None) (Template.Examples t) ->
  Forall (fun f => snd (template_func f) = None) (Template.Funcs t) ->
  Forall (fun f => snd (template_func f) = None) (Template.Methods t) ->
  asciidoc_type_template env template_doc template_value template_example
    template_func t
  = (anchored_heading
       (Asciidoc.genref env ("type " ++ escape env (Template.Name t)))
       (Z.min (Template.Level t) max_depth)
       ("type " ++ escape env (Template.Name t))
     ++ fst (template_doc (Template.Doc t))
     ++ fst (Asciidoc.CodeBlock "go" (Template.Decl t))
     ++ renders template_value (Template.Consts t)
     ++ renders template_value (Template.Vars t)
     ++ renders template_example (Template.Examples t)
     ++ renders template_func (Template.Funcs t)
     ++ renders template_func (Template.Methods t), None).
Proof.
  intros Hlevel Hd Hc Hv He Hf Hm. unfold asciidoc_type_template.
  apply type_template_ok with (href := "") (l := escape env (Template.Name t));
    try assumption.
  - reflexivity.
  - apply Link_empty_href.
  - unfold Asciidoc.RawHeader. now apply header_valid.
  - now apply result_eta.
  - apply result_eta, CodeBlock_no_error.
Qed.

End AsciidocTemplateFacts.

(** ** The further properties at work on concrete texts *)

Lemma ListEntry_injective_witness : 1 = 1 /\ "entry" = "entry".
Proof.
  apply (ListEntry_injective small_heap 1 1 "entry" "entry"
           (ok ("**" ++ " " ++ "entry" ++ nl))).
  - discriminate.
  - discriminate.
  - reflexivity.
  - reflexivity.
Defined.

Lemma RawHeader_depth_recoverable_witness :
  Asciidoc.RawHeader Reference.helpers 7 "My Function"
  = Asciidoc.RawHeader Reference.helpers 9 "My Function"
  <-> Z.min 7 max_depth = Z.min 9 max_depth.
Proof.
  apply (RawHeader_depth_recoverable Reference.helpers 7 9 "My Function").
  - lia.
  - lia.
Defined.

Lemma asciidoc_type_template_invalid_level_witness :
  asciidoc_type_template Reference.helpers Sample.template_doc
    Sample.template_value Sample.template_example Sample.template_func
    Unleveled.Writer
  = ("", Some InvalidLevel).
Proof.
  apply (asciidoc_type_template_invalid_level Reference.helpers unit string
           string string Sample.func).
  simpl. lia.
Defined.

Lemma asciidoc_type_template_text_witness :
  asciidoc_type_template Reference.helpers Sample.template_doc
    Sample.template_value Sample.template_example Sample.template_func
    Sample.Reader
  = (anchored_heading "type-reader" 2 "type Reader"
     ++ fst (Asciidoc.Paragraph "Reader reads.")
     ++ fst (Asciidoc.CodeBlock "go" "type Reader struct{}")
     ++ renders Sample.template_value []
     ++ renders Sample.template_value []
     ++ renders Sample.template_example []
     ++ renders Sample.template_func [Sample.NewReader; Sample.ReadAll]
     ++ renders Sample.template_func [], None).
Proof.
  apply (asciidoc_type_template_text Reference.helpers unit string string
           string Sample.func Sample.template_doc Sample.template_value
           Sample.template_example Sample.template_func Sample.Reader).
  - simpl. lia.
  - reflexivity.
  - constructor.
  - constructor.
  - constructor.
  - repeat constructor.
  - constructor.
Defined.

Lemma type_template_stops_at_failing_func_witness :
  Sample.type_template Unleveled.Reader
  = (fst (Asciidoc.RawHeader Reference.helpers 2 "type Reader")
     ++ fst (Asciidoc.Paragraph "Reader reads.")
     ++ fst (Asciidoc.CodeBlock "go" "type Reader struct{}")
     ++ renders Sample.template_value []
     ++ renders Sample.template_value []
     ++ renders Sample.template_example []
     ++ renders Sample.template_func [Sample.NewReader] ++ "",
     Some InvalidLevel).
Proof.
  apply (type_template_stops_at_failing_func unit string string string
           Sample.func (@Asciidoc.CodeHref unit) Asciidoc.Link
           (Asciidoc.Escape Reference.helpers)
           (Asciidoc.RawHeader Reference.helpers) Asciidoc.CodeBlock
           Sample.template_doc Sample.template_value Sample.template_example
           Sample.template_func Unleveled.Reader "" "Reader" _ _ _ ""
           InvalidLevel [Sample.NewReader] [Sample.ReadAll] Unleveled.Close);
    try reflexivity; repeat constructor.
Defined.

Lemma guarded_output_empty_iff_witness :
  fst (ok ("**" ++ " " ++ "entry" ++ nl)) = "" <-> "entry" = "".
Proof.
  apply (proj2 (proj2 (proj2 (guarded_output_empty_iff "entry")))
           small_heap 1).
  reflexivity.
Defined.

Lemma text_is_recoverable_witness : "text" = "text".
Proof.
  apply (proj1 (text_is_recoverable "text" "text")). reflexivity.
Defined.

Lemma Accordion_title_witness :
  Asciidoc.Accordion "" "Body" = Asciidoc.Accordion "Description" "Body".
Proof.
  apply (proj2 (Accordion_title "" "Description" "Body")). reflexivity.
Defined.

Lemma type_template_succeeds_iff_witness :
  snd (Sample.type_template Sample.Reader) = None.
Proof.
  apply (proj2
           (type_template_succeeds_iff unit string string string Sample.func
              (@Asciidoc.CodeHref unit) Asciidoc.Link
              (Asciidoc.Escape Reference.helpers)
              (Asciidoc.RawHeader Reference.helpers) Asciidoc.CodeBlock
              Sample.template_doc Sample.template_value
              Sample.template_example Sample.template_func Sample.Reader)).
  split.
  - exists "", "Reader". repeat split.
  - repeat split; repeat constructor.
Defined.
